(** * cri-dockerd, package core: container removal (container_remove.go)

    A shallow embedding of [src/core/container_remove.go].  The methods of
    [dockerService] become computations in a state monad over the fields
    the file touches; the collaborators it calls but does not define (the
    log-symlink remover, the docker client, the platform hook) are taken
    through interfaces, and every call made to them is appended to a call
    log so that "is invoked" and "is never invoked" can be stated.

    The reader/writer lock [cleanupInfosLock] only matters between
    goroutines; the development is sequential, each registry operation is
    one atomic step. *)

From Stdlib Require Import Ascii String.
From stdpp Require Import gmap strings list fin_maps.

(** ** Go values *)

(** A non-nil Go [error], observed through its [Error()] message.  A
    result of Go type [error] that may be nil is an [option error]. *)
Record error := errorString { Error : string }.

(** [types.ContainerRemoveOptions] of the docker API. *)
Record ContainerRemoveOptions := {
  RemoveVolumes : bool;
  RemoveLinks : bool;
  Force : bool
}.

(** [v1.RemoveContainerRequest] and [v1.RemoveContainerResponse]. *)
Record RemoveContainerRequest := { ContainerId : string }.
Record RemoveContainerResponse := { }.

(** ** Package fmt, as far as the file uses it *)
Module fmt.

(** [%v] of one [error] operand: its message, or [<nil>]. *)
Definition v_error (e : option error) : string :=
  match e with
  | Some e => Error e
  | None => "<nil>"
  end.

(** [%v] of a [[]error]: the elements in brackets, separated by one
    space. *)
Definition v_errors (errors : list (option error)) : string :=
  "[" +:+ String.concat " " (v_error <$> errors) +:+ "]".

(** [fmt.Errorf] builds an error whose message is the formatted text. *)
Definition Errorf (msg : string) : error := errorString msg.

End fmt.

(** [s] has [sub] as a contiguous part. *)
Definition Contains (s sub : string) : Prop :=
  ∃ pre post, s = pre +:+ sub +:+ post.

(** ** Interfaces of the collaborators *)

(** [libdocker.Interface], the one method used here.  [W] is the state of
    everything outside the service: docker daemon, file system, platform
    resources. *)
Class Interface (W : Type) := {
  client_RemoveContainer :
    string → ContainerRemoveOptions → W → option error * W
}.

(** The platform-specific part, which the package defines once per build
    target: the metadata type and the cleanup hook.  A
    [*containerCleanupInfo] is an [option containerCleanupInfo]. *)
Class Platform (W : Type) := {
  containerCleanupInfo : Type;
  performPlatformSpecificContainerCleanup :
    containerCleanupInfo → W → list (option error) * W
}.

(** [ds.removeContainerLogSymlink], a method defined in another file of
    the package. *)
Class LogSymlinks (W : Type) := {
  removeContainerLogSymlink : string → W → option error * W
}.

(** Package strconv: [Quote], which is the [%q] verb on a string. *)
Class Strconv := {
  Quote : string → string
}.

(** The platform of this source file: [type containerCleanupInfo struct{}]
    and a hook that returns no errors. *)
Definition sourcePlatform (W : Type) : Platform W := {|
  containerCleanupInfo := unit;
  performPlatformSpecificContainerCleanup := λ _ w, ([], w)
|}.

(** ** The service *)
Section Core.

Context {W : Type} {client : Interface W} {platform : Platform W}.
Context {logs : LogSymlinks W} {strconv : Strconv}.

(** The calls recorded in the call log. *)
Inductive Call :=
| CallRemoveContainerLogSymlink (containerID : string)
| CallPerformForContainer (containerID : string)
| CallPerformCleanup (cleanupInfo : containerCleanupInfo)
| CallInfof (line : string)
| CallClientRemoveContainer (containerID : string)
    (opts : ContainerRemoveOptions).

Definition isClientRemoveContainer (c : Call) : bool :=
  match c with
  | CallClientRemoveContainer _ _ => true
  | _ => false
  end.

Definition isPerformForContainer (c : Call) : bool :=
  match c with
  | CallPerformForContainer _ => true
  | _ => false
  end.

Definition isPerformCleanup (c : Call) : bool :=
  match c with
  | CallPerformCleanup _ => true
  | _ => false
  end.

(** The fields of [dockerService] used by the file, the outside world
    and the call log.  The map is taken to be allocated: Go panics on an
    assignment into a nil map. *)
Record dockerService := {
  containerCleanupInfos : gmap string (option containerCleanupInfo);
  world : W;
  calls : list Call
}.

Definition with_infos (m : gmap string (option containerCleanupInfo))
    (ds : dockerService) : dockerService :=
  {| containerCleanupInfos := m; world := world ds; calls := calls ds |}.

Definition with_world (w : W) (ds : dockerService) : dockerService :=
  {| containerCleanupInfos := containerCleanupInfos ds; world := w;
     calls := calls ds |}.

Definition with_call (c : Call) (ds : dockerService) : dockerService :=
  {| containerCleanupInfos := containerCleanupInfos ds; world := world ds;
     calls := calls ds ++ [c] |}.

(** *** The state monad of the methods *)
Definition M (A : Type) : Type := dockerService → A * dockerService.

Definition ret {A} (a : A) : M A := λ ds, (a, ds).

Definition bind {A B} (m : M A) (k : A → M B) : M B :=
  λ ds, let '(a, ds') := m ds in k a ds'.

Notation "'let*' x ':=' m 'in' k" := (bind m (λ x, k))
  (at level 10, x name, m at level 100, k at level 200).

Definition record (c : Call) : M unit := λ ds, (tt, with_call c ds).

(** Run a collaborator on the outside world. *)
Definition outside {A} (f : W → A * W) : M A :=
  λ ds, let '(a, w) := f (world ds) in (a, with_world w ds).

(** [for _, x := range l { body }] *)
Fixpoint for_range {A} (l : list A) (body : A → M unit) : M unit :=
  match l with
  | [] => ret tt
  | x :: l' => let* _ := body x in for_range l' body
  end.

(** *** Cleanup registry *)

Definition getContainerCleanupInfo (containerID : string)
    : M (option containerCleanupInfo * bool) :=
  λ ds,
    (match containerCleanupInfos ds !! containerID with
     | Some info => (info, true)
     | None => (None, false)
     end, ds).

Definition setContainerCleanupInfo (containerID : string)
    (info : option containerCleanupInfo) : M unit :=
  λ ds, (tt, with_infos (<[containerID := info]> (containerCleanupInfos ds)) ds).

Definition clearContainerCleanupInfo (containerID : string) : M unit :=
  λ ds, (tt, with_infos (delete containerID (containerCleanupInfos ds)) ds).

(** *** Platform cleanup *)

Definition logrus_Infof (line : string) : M unit := record (CallInfof line).

(** The line logged for one cleanup error. *)
Definition cleanupErrorLine (containerNameOrID : string)
    (err : option error) : string :=
  "Error when cleaning up after container "
  +:+ containerNameOrID +:+ ": " +:+ fmt.v_error err.

Definition performPlatformSpecificContainerCleanupAndLogErrors
    (containerNameOrID : string)
    (cleanupInfo : option containerCleanupInfo) : M (list (option error)) :=
  match cleanupInfo with
  | None => ret []
  | Some info =>
      let* _ := record (CallPerformCleanup info) in
      let* errors := outside (performPlatformSpecificContainerCleanup info) in
      let* _ := for_range errors (λ err,
        logrus_Infof (cleanupErrorLine containerNameOrID err)) in
      ret errors
  end.

Definition performPlatformSpecificContainerForContainer
    (containerID : string) : M (list (option error)) :=
  let* _ := record (CallPerformForContainer containerID) in
  let* found := getContainerCleanupInfo containerID in
  let cleanupInfo := found.1 in
  let present := found.2 in
  if present then
    let* errors :=
      performPlatformSpecificContainerCleanupAndLogErrors containerID cleanupInfo in
    let* _ := if (length errors =? 0)%nat
              then clearContainerCleanupInfo containerID
              else ret tt in
    ret errors
  else ret [].

(** *** Removal *)

(** [types.ContainerRemoveOptions{RemoveVolumes: true, Force: true}];
    the field not named keeps its zero value. *)
Definition removeOptions : ContainerRemoveOptions :=
  {| RemoveVolumes := true; RemoveLinks := false; Force := true |}.

(** The two error messages built with [fmt.Errorf]. *)
Definition cleanupFailedMessage (containerID : string)
    (errors : list (option error)) : string :=
  "failed to run platform-specific clean ups for container "
  +:+ Quote containerID +:+ ": " +:+ fmt.v_errors errors.

Definition removeFailedMessage (containerID : string) (err : error) : string :=
  "failed to remove container "
  +:+ Quote containerID +:+ ": " +:+ Error err.

Definition RemoveContainer (r : RemoveContainerRequest)
    : M (option RemoveContainerResponse * option error) :=
  let* _ := record (CallRemoveContainerLogSymlink (ContainerId r)) in
  let* err := outside (removeContainerLogSymlink (ContainerId r)) in
  match err with
  | Some err => ret (None, Some err)
  | None =>
      let* errors := performPlatformSpecificContainerForContainer (ContainerId r) in
      if negb (length errors =? 0)%nat then
        ret (None, Some (fmt.Errorf (cleanupFailedMessage (ContainerId r) errors)))
      else
        let opts := removeOptions in
        let* _ := record (CallClientRemoveContainer (ContainerId r) opts) in
        let* err := outside (client_RemoveContainer (ContainerId r) opts) in
        match err with
        | Some err =>
            ret (None, Some (fmt.Errorf (removeFailedMessage (ContainerId r) err)))
        | None => ret (Some Build_RemoveContainerResponse, None)
        end
  end.

End Core.

Arguments Call {W _}.
Arguments dockerService {W _}.
Arguments M {W _} A.
Arguments removeOptions : simpl never.

(** ** Timestamps *)

(** [types.ContainerJSON], the fields read here.  The record, its embedded
    base and its [State] are taken to be non-nil, as docker's inspect call
    returns them. *)
Record ContainerState := { StartedAt : string; FinishedAt : string }.
Record ContainerJSON := { Created : string; State : ContainerState }.

Section Timestamps.

(** [time.Time] and its zero value. *)
Variable Time : Type.
Variable zeroTime : Time.

(** [libdocker.ParseDockerTimestamp]: a pure function of the string,
    returning a time and a possibly nil error. *)
Variable ParseDockerTimestamp : string → Time * option error.

(** A parse, with the parsed string appended to the log of parser
    calls. *)
Definition parseLogged (s : string) (log : list string)
    : (Time * option error) * list string :=
  (ParseDockerTimestamp s, log ++ [s]).

Definition getContainerTimestamps (r : ContainerJSON) (log : list string)
    : (Time * Time * Time * option error) * list string :=
  let createdAt := zeroTime in
  let startedAt := zeroTime in
  let finishedAt := zeroTime in
  let '((createdAt, err), log) := parseLogged (Created r) log in
  match err with
  | Some err => ((createdAt, startedAt, finishedAt, Some err), log)
  | None =>
      let '((startedAt, err), log) := parseLogged (StartedAt (State r)) log in
      match err with
      | Some err => ((createdAt, startedAt, finishedAt, Some err), log)
      | None =>
          let '((finishedAt, err), log) :=
            parseLogged (FinishedAt (State r)) log in
          match err with
          | Some err => ((createdAt, startedAt, finishedAt, Some err), log)
          | None => ((createdAt, startedAt, finishedAt, None), log)
          end
      end
  end.

(** The three timestamp strings, in the order the function reads
    them. *)
Definition timestampFields (r : ContainerJSON) : list string :=
  [Created r; StartedAt (State r); FinishedAt (State r)].

(** The position in [timestampFields] of the first string the parser
    rejects. *)
Definition firstRejected (r : ContainerJSON) : option nat :=
  fst <$> list_find (λ s, is_Some (ParseDockerTimestamp s).2)
            (timestampFields r).

(** The error value returned by the extraction. *)
Definition timestampsError (r : ContainerJSON) : option error :=
  (getContainerTimestamps r []).1.2.

End Timestamps.

(** What it would mean for the returned error to tell which field was
    malformed: the field's position can be read off the error alone. *)
Definition error_identifies_field {Time : Type} (zeroTime : Time)
    (parse : string → Time * option error) : Prop :=
  ∃ which : error → nat,
    ∀ r e, timestampsError Time zeroTime parse r = Some e →
           firstRejected Time parse r = Some (which e).

(** ** Test doubles *)
Module Mock.

(** The scripted outcome of each collaborator. *)
Record script := {
  symlinkError : option error;
  cleanupErrors : list (option error);
  removeError : option error
}.

Global Instance client : Interface script :=
  {| client_RemoveContainer := λ _ _ w, (removeError w, w) |}.

(** A platform whose metadata is a list of volume names. *)
Global Instance platform : Platform script :=
  {| containerCleanupInfo := list string;
     performPlatformSpecificContainerCleanup := λ _ w, (cleanupErrors w, w) |}.

Global Instance logs : LogSymlinks script :=
  {| removeContainerLogSymlink := λ _ w, (symlinkError w, w) |}.

(** [strconv.Quote] on identifiers made of letters and digits: the
    string between two double quotes. *)
Global Instance strconv : Strconv :=
  {| Quote := λ s, String "034"%char (s +:+ String "034"%char "") |}.

Definition errA : error := errorString "errA".
Definition errB : error := errorString "errB".

Definition service (w : script)
    (infos : gmap string (option (list string))) : dockerService :=
  {| containerCleanupInfos := infos; world := w; calls := [] |}.

Definition healthy : script :=
  {| symlinkError := None; cleanupErrors := []; removeError := None |}.

Definition cleanupFails : script :=
  {| symlinkError := None; cleanupErrors := [Some errA; Some errB];
     removeError := None |}.

Definition symlinkFails : script :=
  {| symlinkError := Some (errorString "unlink: permission denied");
     cleanupErrors := []; removeError := None |}.

Definition removeFails : script :=
  {| symlinkError := None; cleanupErrors := [];
     removeError := Some (errorString "No such container") |}.

(** The scenarios: a container with metadata on a healthy host, one
    whose cleanup fails twice, one without metadata. *)
Definition abc : dockerService :=
  service healthy {[ "abc" := Some ["v1"] ]}.
Definition def : dockerService :=
  service cleanupFails {[ "def" := Some ["v1"] ]}.
Definition ghi : dockerService := service healthy ∅.

(** The same container as [abc] on a host where the symlink cannot be
    removed, and on one where docker refuses the removal. *)
Definition stuck : dockerService :=
  service symlinkFails {[ "abc" := Some ["v1"] ]}.
Definition refused : dockerService :=
  service removeFails {[ "abc" := Some ["v1"] ]}.

Definition request (containerID : string) : RemoveContainerRequest :=
  {| ContainerId := containerID |}.

(** A parser over unix seconds that accepts one well-formed stamp and
    reports the rejected string otherwise. *)
Definition parse (s : string) : Z * option error :=
  if decide (s = "2021-06-01T10:00:00Z") then (1622541600%Z, None)
  else (0%Z, Some (errorString ("parsing time " +:+ Quote s))).

Definition badCreated : ContainerJSON :=
  {| Created := "yesterday";
     State := {| StartedAt := "2021-06-01T10:00:00Z";
                 FinishedAt := "2021-06-01T10:00:00Z" |} |}.

Definition badStartedAt : ContainerJSON :=
  {| Created := "2021-06-01T10:00:00Z";
     State := {| StartedAt := "yesterday";
                 FinishedAt := "2021-06-01T10:00:00Z" |} |}.

End Mock.

(** The three times of a result of [getContainerTimestamps], in the order
    of [timestampFields]. *)
Definition returnedTimes {Time : Type}
    (res : Time * Time * Time * option error) : list Time :=
  [res.1.1.1; res.1.1.2; res.1.2].

(** More test data: the variant of this source file over the scripted
    collaborators, and inspection records. *)
Module Fixture.

Definition sourceService (w : Mock.script) (infos : gmap string (option unit))
    : @dockerService Mock.script (sourcePlatform Mock.script) :=
  @Build_dockerService Mock.script (sourcePlatform Mock.script) infos w [].

Definition registered : @dockerService Mock.script (sourcePlatform Mock.script) :=
  sourceService Mock.healthy {[ "abc" := Some tt ]}.

(** An entry that holds a nil pointer. *)
Definition nilEntry : dockerService :=
  Mock.service Mock.cleanupFails {[ "abc" := None; "def" := Some ["v1"] ]}.

Definition wellFormed : ContainerJSON :=
  {| Created := "2021-06-01T10:00:00Z";
     State := {| StartedAt := "2021-06-01T10:00:00Z";
                 FinishedAt := "2021-06-01T10:00:00Z" |} |}.

Definition badFinishedAt : ContainerJSON :=
  {| Created := "2021-06-01T10:00:00Z";
     State := {| StartedAt := "2021-06-01T10:00:00Z";
                 FinishedAt := "" |} |}.

End Fixture.

(** ** Strings *)

Lemma append_cons (c : ascii) (s t : string) :
  String c s +:+ t = String c (s +:+ t).
Proof. reflexivity. Qed.

Lemma append_assoc (s1 s2 s3 : string) :
  (s1 +:+ s2) +:+ s3 = s1 +:+ s2 +:+ s3.
Proof.
  induction s1 as [|c s1 IH]; [done|].
  by rewrite !append_cons, IH.
Qed.

Lemma append_empty_r (s : string) : s +:+ "" = s.
Proof. induction s as [|c s IH]; [done | by rewrite append_cons, IH]. Qed.

Lemma Contains_refl (s : string) : Contains s s.
Proof. exists "", "". by rewrite append_empty_r. Qed.

Lemma Contains_app_l (p s sub : string) :
  Contains s sub → Contains (p +:+ s) sub.
Proof.
  intros (pre & post & ->). exists (p +:+ pre), post.
  by rewrite append_assoc.
Qed.

Lemma Contains_app_r (q s sub : string) :
  Contains s sub → Contains (s +:+ q) sub.
Proof.
  intros (pre & post & ->). exists pre, (post +:+ q).
  by rewrite !append_assoc.
Qed.



(** ** Running the methods *)
Section Run.

Context {W : Type} {client : Interface W} {platform : Platform W}.
Context {logs : LogSymlinks W} {strconv : Strconv}.

Implicit Types (ds : dockerService) (containerID : string).
Implicit Types (info : containerCleanupInfo) (errors : list (option error)).

Lemma dockerService_eta ds :
  {| containerCleanupInfos := containerCleanupInfos ds;
     world := world ds; calls := calls ds |} = ds.
Proof. by destruct ds. Qed.

(** The logging loop appends one line per error and does nothing else. *)
Lemma for_range_Infof (line : option error → string) errors ds :
  for_range errors (λ err, logrus_Infof (line err)) ds
  = (tt, {| containerCleanupInfos := containerCleanupInfos ds;
            world := world ds;
            calls := calls ds ++ (CallInfof ∘ line <$> errors) |}).
Proof.
  revert ds. induction errors as [|err errors IH]; intros ds.
  - cbn. by rewrite app_nil_r, dockerService_eta.
  - cbn [for_range]. unfold bind at 1. cbn [logrus_Infof record].
    rewrite IH. cbn. by rewrite <- app_assoc.
Qed.

(** With metadata at hand, the helper calls the hook once, then logs. *)
Lemma cleanupAndLogErrors_Some containerID info ds errors w :
  performPlatformSpecificContainerCleanup info (world ds) = (errors, w) →
  performPlatformSpecificContainerCleanupAndLogErrors containerID (Some info) ds
  = (errors,
     {| containerCleanupInfos := containerCleanupInfos ds;
        world := w;
        calls := calls ds ++ CallPerformCleanup info
                   :: (CallInfof ∘ cleanupErrorLine containerID <$> errors) |}).
Proof.
  intros Hhook.
  unfold performPlatformSpecificContainerCleanupAndLogErrors, bind, record,
    outside, ret.
  cbn. rewrite Hhook. rewrite for_range_Infof. cbn.
  by rewrite <- app_assoc.
Qed.

(** The platform step, case by case. *)
Lemma forContainer_absent containerID ds :
  containerCleanupInfos ds !! containerID = None →
  performPlatformSpecificContainerForContainer containerID ds
  = ([], with_call (CallPerformForContainer containerID) ds).
Proof.
  intros Hm.
  unfold performPlatformSpecificContainerForContainer, bind, record,
    getContainerCleanupInfo, ret.
  cbn. by rewrite Hm.
Qed.

Lemma forContainer_nil containerID ds :
  containerCleanupInfos ds !! containerID = Some None →
  performPlatformSpecificContainerForContainer containerID ds
  = ([], {| containerCleanupInfos := delete containerID (containerCleanupInfos ds);
            world := world ds;
            calls := calls ds ++ [CallPerformForContainer containerID] |}).
Proof.
  intros Hm.
  unfold performPlatformSpecificContainerForContainer, bind, record,
    getContainerCleanupInfo, ret.
  cbn. by rewrite Hm.
Qed.

Lemma forContainer_clean containerID info ds w :
  containerCleanupInfos ds !! containerID = Some (Some info) →
  performPlatformSpecificContainerCleanup info (world ds) = ([], w) →
  performPlatformSpecificContainerForContainer containerID ds
  = ([], {| containerCleanupInfos := delete containerID (containerCleanupInfos ds);
            world := w;
            calls := calls ds ++ [CallPerformForContainer containerID;
                                  CallPerformCleanup info] |}).
Proof.
  intros Hm Hhook.
  unfold performPlatformSpecificContainerForContainer, bind at 1 2.
  cbn [record getContainerCleanupInfo with_call containerCleanupInfos].
  rewrite Hm. cbn [fst snd]. unfold bind.
  erewrite cleanupAndLogErrors_Some by exact Hhook.
  cbn. by rewrite <- app_assoc.
Qed.

Lemma forContainer_failed containerID info ds errors w :
  containerCleanupInfos ds !! containerID = Some (Some info) →
  performPlatformSpecificContainerCleanup info (world ds) = (errors, w) →
  errors ≠ [] →
  performPlatformSpecificContainerForContainer containerID ds
  = (errors,
     {| containerCleanupInfos := containerCleanupInfos ds;
        world := w;
        calls := calls ds ++ CallPerformForContainer containerID
                   :: CallPerformCleanup info
                   :: (CallInfof ∘ cleanupErrorLine containerID <$> errors) |}).
Proof.
  intros Hm Hhook Hne.
  unfold performPlatformSpecificContainerForContainer, bind at 1 2.
  cbn [record getContainerCleanupInfo with_call containerCleanupInfos].
  rewrite Hm. cbn [fst snd]. unfold bind.
  erewrite cleanupAndLogErrors_Some by exact Hhook.
  destruct errors as [|e errors]; [done|].
  cbn. by rewrite <- app_assoc.
Qed.

(** Log lines are never counted as calls of another kind. *)
Lemma filter_Infof (p : Call → bool) (line : option error → string) errors :
  (∀ s, p (CallInfof s) = false) →
  filter p (CallInfof ∘ line <$> errors) = [].
Proof.
  intros Hp. induction errors as [|e errors IH]; [done|].
  rewrite fmap_cons, filter_cons_False; [done|].
  cbn. rewrite Hp. intros Hfalse. exact Hfalse.
Qed.


(** The platform step only extends the call log, and never with a call
    to the docker client. *)
Lemma forContainer_calls containerID ds :
  ∃ new,
    calls (performPlatformSpecificContainerForContainer containerID ds).2
    = calls ds ++ new ∧
    filter isClientRemoveContainer new = [].
Proof.
  destruct (containerCleanupInfos ds !! containerID) as [[info|]|] eqn:Hm.
  - destruct (performPlatformSpecificContainerCleanup info (world ds))
      as [errs w] eqn:Hhook.
    destruct errs as [|e errs].
    + rewrite (forContainer_clean _ _ _ _ Hm Hhook). by eexists.
    + rewrite (forContainer_failed _ _ _ _ _ Hm Hhook) by done.
      eexists; split; [done|].
      rewrite !filter_cons_False by (cbn; tauto).
      by apply filter_Infof.
  - rewrite (forContainer_nil _ _ Hm). by eexists.
  - rewrite (forContainer_absent _ _ Hm). by eexists.
Qed.

(** *** The cleanup registry *)

(** C7: Clear is idempotent.  Clearing an identifier that is not
    registered changes nothing (the method has no error result to
    produce); a second Clear of the same identifier leaves the state the
    first one produced, in which the entry is absent and every other
    entry is as before. *)
Theorem clearContainerCleanupInfo_idempotent containerID ds :
  (containerCleanupInfos ds !! containerID = None →
   clearContainerCleanupInfo containerID ds = (tt, ds)) ∧
  clearContainerCleanupInfo containerID
    (clearContainerCleanupInfo containerID ds).2
  = clearContainerCleanupInfo containerID ds ∧
  containerCleanupInfos (clearContainerCleanupInfo containerID ds).2
    !! containerID = None ∧
  (∀ other, other ≠ containerID →
     containerCleanupInfos (clearContainerCleanupInfo containerID ds).2
       !! other = containerCleanupInfos ds !! other).
Proof.
  unfold clearContainerCleanupInfo, with_infos. cbn.
  split; [|split; [|split]].
  - intros Hm. rewrite delete_id by done. by rewrite dockerService_eta.
  - by rewrite delete_delete_eq.
  - apply lookup_delete_eq.
  - intros other Hne. by apply lookup_delete_ne.
Qed.

(** C9: Set replaces any existing entry: a Get of the same identifier
    after Set(id, info) returns info with present = true, whatever the
    registry held before. *)
Theorem getContainerCleanupInfo_after_set containerID
    (info : option containerCleanupInfo) ds :
  (getContainerCleanupInfo containerID
     (setContainerCleanupInfo containerID info ds).2).1 = (info, true).
Proof.
  unfold getContainerCleanupInfo, setContainerCleanupInfo, with_infos. cbn.
  by rewrite lookup_insert_eq.
Qed.

(** C10: registry operations are framed per key.  For distinct
    identifiers a and b, Set(a, info) and Clear(a) leave the lookup of b
    as it was, and Get(a) leaves the whole service state as it was. *)
Theorem registry_frame (a b : string) (info : option containerCleanupInfo) ds :
  a ≠ b →
  containerCleanupInfos (setContainerCleanupInfo a info ds).2 !! b
    = containerCleanupInfos ds !! b ∧
  containerCleanupInfos (clearContainerCleanupInfo a ds).2 !! b
    = containerCleanupInfos ds !! b ∧
  (getContainerCleanupInfo a ds).2 = ds.
Proof.
  intros Hne.
  unfold setContainerCleanupInfo, clearContainerCleanupInfo,
    getContainerCleanupInfo, with_infos. cbn.
  by rewrite lookup_insert_ne, lookup_delete_ne.
Qed.

(** *** The platform cleanup step *)

(** C6: with nil metadata the cleanup-and-log helper does nothing and
    returns no errors, whatever the container name: the service state,
    the outside world and the call log are as before. *)
Theorem cleanupAndLogErrors_nil (containerNameOrID : string) ds :
  performPlatformSpecificContainerCleanupAndLogErrors containerNameOrID None ds
  = ([], ds).
Proof. reflexivity. Qed.

(** C4: for an identifier that is not in the registry the platform step
    returns no errors, does not call the platform hook and leaves the
    registry (and the outside world) as it was; the only entry added to
    the call log is the step's own. *)
Theorem forContainer_unregistered containerID ds :
  containerCleanupInfos ds !! containerID = None →
  let run := performPlatformSpecificContainerForContainer containerID ds in
  run.1 = [] ∧
  containerCleanupInfos run.2 = containerCleanupInfos ds ∧
  world run.2 = world ds ∧
  calls run.2 = calls ds ++ [CallPerformForContainer containerID] ∧
  filter isPerformCleanup (calls run.2) = filter isPerformCleanup (calls ds).
Proof.
  intros Hm run. subst run. rewrite (forContainer_absent _ _ Hm). cbn.
  repeat split.
  rewrite filter_app, filter_cons_False by (cbn; tauto).
  by rewrite filter_nil, app_nil_r.
Qed.

(** C1: for an identifier registered with (non-nil) metadata, one run of
    the platform step calls the hook once on that metadata and returns
    what the hook returned; afterwards the entry is absent exactly when
    the hook returned no errors, and when it returned some the entry is
    still there with the same metadata. *)
Theorem forContainer_clears_iff_clean containerID info ds :
  containerCleanupInfos ds !! containerID = Some (Some info) →
  let hook := performPlatformSpecificContainerCleanup info (world ds) in
  let run := performPlatformSpecificContainerForContainer containerID ds in
  run.1 = hook.1 ∧
  filter isPerformCleanup (calls run.2)
    = filter isPerformCleanup (calls ds) ++ [CallPerformCleanup info] ∧
  (containerCleanupInfos run.2 !! containerID = None ↔ hook.1 = []) ∧
  (hook.1 ≠ [] →
   containerCleanupInfos run.2 !! containerID = Some (Some info)).
Proof.
  intros Hm hook run. subst hook run.
  destruct (performPlatformSpecificContainerCleanup info (world ds))
    as [errors w] eqn:Hhook.
  destruct errors as [|e errors].
  - rewrite (forContainer_clean _ _ _ _ Hm Hhook). cbn.
    split; [done|]. split.
    + rewrite filter_app, filter_cons_False by (cbn; tauto).
      by rewrite filter_cons_True by done.
    + split; [|done]. split; [done|]. intros _. apply lookup_delete_eq.
  - rewrite (forContainer_failed _ _ _ _ _ Hm Hhook) by done. cbn.
    split; [done|]. split.
    + rewrite filter_app, filter_cons_False by (cbn; tauto).
      rewrite filter_cons_True by done.
      rewrite filter_cons_False by (cbn; tauto).
      by rewrite (filter_Infof isPerformCleanup (cleanupErrorLine containerID)).
    + split; [|done]. rewrite Hm. split; intros; done.
Qed.

(** An entry registered with a nil pointer is cleared by the step
    without any call to the hook. *)
Lemma forContainer_nil_entry containerID ds :
  containerCleanupInfos ds !! containerID = Some None →
  let run := performPlatformSpecificContainerForContainer containerID ds in
  run.1 = [] ∧
  containerCleanupInfos run.2 !! containerID = None ∧
  calls run.2 = calls ds ++ [CallPerformForContainer containerID].
Proof.
  intros Hm run. subst run. rewrite (forContainer_nil _ _ Hm). cbn.
  repeat split. apply lookup_delete_eq.
Qed.

(** *** RemoveContainer *)

(** The service once the log symlink has been removed, leaving the
    outside world [w]. *)
Local Abbreviation afterSymlink containerID w ds :=
  (with_world w (with_call (CallRemoveContainerLogSymlink containerID) ds)).

Lemma RemoveContainer_symlink_ok r ds w :
  removeContainerLogSymlink (ContainerId r) (world ds) = (None, w) →
  RemoveContainer r ds
  = let step := performPlatformSpecificContainerForContainer (ContainerId r)
                  (afterSymlink (ContainerId r) w ds) in
    if negb (length step.1 =? 0)%nat then
      ((None, Some (fmt.Errorf (cleanupFailedMessage (ContainerId r) step.1))),
       step.2)
    else
      let back := client_RemoveContainer (ContainerId r) removeOptions
                    (world step.2) in
      (match back.1 with
       | Some err =>
           (None, Some (fmt.Errorf (removeFailedMessage (ContainerId r) err)))
       | None => (Some Build_RemoveContainerResponse, None)
       end,
       {| containerCleanupInfos := containerCleanupInfos step.2;
          world := back.2;
          calls := calls step.2
                   ++ [CallClientRemoveContainer (ContainerId r) removeOptions] |}).
Proof.
  intros Hsym.
  unfold RemoveContainer, bind, record, outside, ret.
  cbn [with_call world]. rewrite Hsym. cbn zeta.
  destruct (performPlatformSpecificContainerForContainer _ _)
    as [errors ds2].
  cbn [fst snd]. destruct (negb _); [done|].
  cbn [with_call world].
  destruct (client_RemoveContainer _ _ _) as [[err|] w3]; done.
Qed.

(** C3: when removing the log symlink fails, RemoveContainer returns
    that very error and no response; the platform step and the docker
    client are not called (the call log gains the symlink removal
    only) and the registry is unchanged. *)
Theorem RemoveContainer_symlink_error r ds err w :
  removeContainerLogSymlink (ContainerId r) (world ds) = (Some err, w) →
  let run := RemoveContainer r ds in
  run.1 = (None, Some err) ∧
  calls run.2 = calls ds ++ [CallRemoveContainerLogSymlink (ContainerId r)] ∧
  filter isPerformForContainer (calls run.2)
    = filter isPerformForContainer (calls ds) ∧
  filter isClientRemoveContainer (calls run.2)
    = filter isClientRemoveContainer (calls ds) ∧
  containerCleanupInfos run.2 = containerCleanupInfos ds ∧
  world run.2 = w.
Proof.
  intros Hsym run. subst run.
  unfold RemoveContainer, bind, record, outside, ret.
  cbn [with_call world]. rewrite Hsym. cbn.
  repeat split.
  - rewrite filter_app, filter_cons_False by (cbn; tauto).
    by rewrite filter_nil, app_nil_r.
  - rewrite filter_app, filter_cons_False by (cbn; tauto).
    by rewrite filter_nil, app_nil_r.
Qed.



End Run.

(** ** Timestamp extraction *)
Section TimestampProperties.

Variable Time : Type.
Variable zeroTime : Time.
Variable parse : string → Time * option error.

(** When all three strings parse, the three times come back in order
    with a nil error, after exactly three parser calls. *)
Lemma getContainerTimestamps_ok r log :
  (∀ s, s ∈ timestampFields r → (parse s).2 = None) →
  getContainerTimestamps Time zeroTime parse r log
  = (((parse (Created r)).1, (parse (StartedAt (State r))).1,
      (parse (FinishedAt (State r))).1, None),
     log ++ timestampFields r).
Proof.
  intros Hok.
  unfold getContainerTimestamps, parseLogged, timestampFields in *.
  pose proof (Hok (Created r)) as H1.
  pose proof (Hok (StartedAt (State r))) as H2.
  pose proof (Hok (FinishedAt (State r))) as H3.
  destruct (parse (Created r)) as [t1 e1].
  destruct (parse (StartedAt (State r))) as [t2 e2].
  destruct (parse (FinishedAt (State r))) as [t3 e3].
  cbn in *. rewrite H1, H2, H3 by set_solver.
  by rewrite <- !app_assoc.
Qed.

(** C8, as the code has it: the strings are parsed in the order Created,
    State.StartedAt, State.FinishedAt; at the first string the parser
    rejects, extraction stops and returns the parser's error for that
    string unchanged, and the strings after it are not handed to the
    parser. *)
Theorem getContainerTimestamps_first_failure r log i s e :
  timestampFields r !! i = Some s →
  (parse s).2 = Some e →
  (∀ j s', j < i → timestampFields r !! j = Some s' → (parse s').2 = None) →
  let run := getContainerTimestamps Time zeroTime parse r log in
  run.1.2 = Some e ∧
  run.2 = log ++ take (S i) (timestampFields r).
Proof.
  intros Hi He Hbefore run. subst run.
  unfold getContainerTimestamps, parseLogged, timestampFields in *.
  destruct i as [|[|[|i]]]; cbn in Hi; simplify_eq.
  - destruct (parse (Created r)) as [t1 e1]. cbn in *. by subst.
  - pose proof (Hbefore 0 _ ltac:(lia) eq_refl) as H1.
    destruct (parse (Created r)) as [t1 e1].
    destruct (parse (StartedAt (State r))) as [t2 e2].
    cbn in *. subst. by rewrite <- !app_assoc.
  - pose proof (Hbefore 0 _ ltac:(lia) eq_refl) as H1.
    pose proof (Hbefore 1 _ ltac:(lia) eq_refl) as H2.
    destruct (parse (Created r)) as [t1 e1].
    destruct (parse (StartedAt (State r))) as [t2 e2].
    destruct (parse (FinishedAt (State r))) as [t3 e3].
    cbn in *. subst. by rewrite <- !app_assoc.
Qed.

End TimestampProperties.

(** The position found by [firstRejected], for a failure in the first and
    in the second field. *)
Lemma firstRejected_Created {Time : Type} (parse : string → Time * option error) r :
  is_Some (parse (Created r)).2 → firstRejected Time parse r = Some 0.
Proof.
  intros Hbad. unfold firstRejected, timestampFields. cbn [list_find].
  by rewrite decide_True by done.
Qed.

Lemma firstRejected_StartedAt {Time : Type} (parse : string → Time * option error) r :
  (parse (Created r)).2 = None →
  is_Some (parse (StartedAt (State r))).2 →
  firstRejected Time parse r = Some 1.
Proof.
  intros Hgood Hbad. unfold firstRejected, timestampFields. cbn [list_find].
  rewrite decide_False by (rewrite Hgood; by intros [? ?]).
  by rewrite decide_True by done.
Qed.

(** Whatever the parser, as soon as it rejects one string and accepts
    another, a malformed Created and a malformed StartedAt holding the
    same text yield the same error. *)
Lemma error_same_for_two_fields {Time : Type} (zeroTime : Time)
    (parse : string → Time * option error) (bad good : string) :
  is_Some (parse bad).2 →
  (parse good).2 = None →
  ¬ error_identifies_field zeroTime parse.
Proof.
  intros [e He] Hgood [which Hwhich].
  set (r1 := {| Created := bad;
                State := {| StartedAt := good; FinishedAt := good |} |}).
  set (r2 := {| Created := good;
                State := {| StartedAt := bad; FinishedAt := good |} |}).
  assert (timestampsError Time zeroTime parse r1 = Some e) as H1.
  { unfold timestampsError, getContainerTimestamps, parseLogged. cbn.
    destruct (parse bad) as [t1 e1]. cbn in He. by subst. }
  assert (timestampsError Time zeroTime parse r2 = Some e) as H2.
  { unfold timestampsError, getContainerTimestamps, parseLogged. cbn.
    destruct (parse good) as [t1 e1], (parse bad) as [t2 e2].
    cbn in He, Hgood. by subst. }
  apply Hwhich in H1, H2.
  rewrite firstRejected_Created in H1 by (cbn; by rewrite He).
  rewrite firstRejected_StartedAt in H2 by (cbn; by rewrite ?He).
  congruence.
Qed.

(** C8 as worded does not hold: with the test parser, a record whose
    Created is malformed and one whose StartedAt is malformed return the
    same error, so the error does not tell which field was at fault. *)
Lemma getContainerTimestamps_error_names_no_field :
  timestampsError Z 0%Z Mock.parse Mock.badCreated
    = timestampsError Z 0%Z Mock.parse Mock.badStartedAt ∧
  firstRejected Z Mock.parse Mock.badCreated = Some 0 ∧
  firstRejected Z Mock.parse Mock.badStartedAt = Some 1 ∧
  ¬ error_identifies_field 0%Z Mock.parse.
Proof.
  split; [by vm_compute|]. split; [by vm_compute|]. split; [by vm_compute|].
  apply (error_same_for_two_fields 0%Z Mock.parse
           "yesterday" "2021-06-01T10:00:00Z");
    [eexists; reflexivity | reflexivity].
Qed.

(** ** The scenarios, run *)

(** Container abc: metadata registered, cleanup returns no errors.  The
    removal succeeds, the entry is gone and docker was asked once, with
    volumes and force. *)
Example scenario_abc :
  let run := RemoveContainer (Mock.request "abc") Mock.abc in
  run.1 = (Some Build_RemoveContainerResponse, None) ∧
  containerCleanupInfos run.2 !! "abc" = None ∧
  calls run.2 = [CallRemoveContainerLogSymlink "abc";
                 CallPerformForContainer "abc";
                 CallPerformCleanup ["v1"];
                 CallClientRemoveContainer "abc"
                   {| RemoveVolumes := true; RemoveLinks := false;
                      Force := true |}].
Proof. by vm_compute. Qed.

(** Container def: cleanup returns errA and errB.  The removal fails with
    the aggregated message, the entry stays and docker is not asked. *)
Example scenario_def :
  let run := RemoveContainer (Mock.request "def") Mock.def in
  run.1 = (None, Some (errorString
             ("failed to run platform-specific clean ups for container "
              +:+ Quote "def" +:+ ": [errA errB]"))) ∧
  containerCleanupInfos run.2 !! "def" = Some (Some ["v1"]) ∧
  calls run.2 = [CallRemoveContainerLogSymlink "def";
                 CallPerformForContainer "def";
                 CallPerformCleanup ["v1"];
                 CallInfof "Error when cleaning up after container def: errA";
                 CallInfof "Error when cleaning up after container def: errB"].
Proof. by vm_compute. Qed.

(** Container ghi: no metadata.  Only the symlink removal and docker's
    removal reach a collaborator; the hook is not called. *)
Example scenario_ghi :
  let run := RemoveContainer (Mock.request "ghi") Mock.ghi in
  run.1 = (Some Build_RemoveContainerResponse, None) ∧
  calls run.2 = [CallRemoveContainerLogSymlink "ghi";
                 CallPerformForContainer "ghi";
                 CallClientRemoveContainer "ghi" removeOptions].
Proof. by vm_compute. Qed.

(** With the platform of this source file the hook never fails, so every
    registered entry is consumed by the first removal that gets past the
    symlink. *)
Example sourcePlatform_step (ds : @dockerService unit (sourcePlatform unit))
    (containerID : string) :
  (@performPlatformSpecificContainerForContainer
     unit (sourcePlatform unit) containerID ds).1 = [] ∧
  containerCleanupInfos
    (@performPlatformSpecificContainerForContainer
       unit (sourcePlatform unit) containerID ds).2 !! containerID = None.
Proof.
  destruct (containerCleanupInfos ds !! containerID) as [[info|]|] eqn:Hm.
  - rewrite (forContainer_clean containerID info ds (world ds) Hm eq_refl).
    split; [done|]. apply lookup_delete_eq.
  - rewrite (forContainer_nil containerID ds Hm).
    split; [done|]. apply lookup_delete_eq.
  - by rewrite (forContainer_absent containerID ds Hm).
Qed.

(** ** The theorems at the scenarios *)

Lemma clearContainerCleanupInfo_idempotent_witness :
  containerCleanupInfos Mock.abc !! "ghi" = None ∧
  clearContainerCleanupInfo "ghi" Mock.abc = (tt, Mock.abc).
Proof.
  split; [reflexivity|].
  apply (proj1 (clearContainerCleanupInfo_idempotent "ghi" Mock.abc)).
  reflexivity.
Defined.

Lemma registry_frame_witness :
  "abc" ≠ "def" ∧
  containerCleanupInfos (clearContainerCleanupInfo "abc" Mock.def).2 !! "def"
    = containerCleanupInfos Mock.def !! "def".
Proof.
  assert ("abc" ≠ "def") as Hne by discriminate.
  split; [exact Hne|].
  exact (proj1 (proj2 (registry_frame "abc" "def" None Mock.def Hne))).
Defined.

Lemma forContainer_unregistered_witness :
  containerCleanupInfos Mock.ghi !! "ghi" = None ∧
  (performPlatformSpecificContainerForContainer "ghi" Mock.ghi).1 = [] ∧
  containerCleanupInfos
    (performPlatformSpecificContainerForContainer "ghi" Mock.ghi).2
    = containerCleanupInfos Mock.ghi.
Proof.
  split; [reflexivity|].
  destruct (forContainer_unregistered "ghi" Mock.ghi eq_refl)
    as (Herrors & Hinfos & _).
  split; [exact Herrors | exact Hinfos].
Defined.

Lemma forContainer_clears_iff_clean_witness :
  containerCleanupInfos Mock.def !! "def" = Some (Some ["v1"]) ∧
  containerCleanupInfos
    (performPlatformSpecificContainerForContainer "def" Mock.def).2 !! "def"
    = Some (Some ["v1"]).
Proof.
  split; [reflexivity|].
  destruct (forContainer_clears_iff_clean (platform := Mock.platform)
              "def" ["v1"] Mock.def eq_refl)
    as (_ & _ & _ & Hkept).
  apply Hkept. discriminate.
Defined.

Lemma RemoveContainer_symlink_error_witness :
  removeContainerLogSymlink "abc" (world Mock.stuck)
    = (Some (errorString "unlink: permission denied"), Mock.symlinkFails) ∧
  (RemoveContainer (Mock.request "abc") Mock.stuck).1
    = (None, Some (errorString "unlink: permission denied")).
Proof.
  split; [reflexivity|].
  exact (proj1 (RemoveContainer_symlink_error (client := Mock.client)
                  (platform := Mock.platform) (logs := Mock.logs)
                  (strconv := Mock.strconv) (Mock.request "abc") Mock.stuck
                  (errorString "unlink: permission denied")
                  Mock.symlinkFails eq_refl)).
Defined.



Lemma getContainerTimestamps_first_failure_witness :
  timestampFields Mock.badCreated !! 0 = Some "yesterday" ∧
  (Mock.parse "yesterday").2
    = Some (errorString ("parsing time " +:+ Quote "yesterday")) ∧
  (getContainerTimestamps Z 0%Z Mock.parse Mock.badCreated []).2 = ["yesterday"].
Proof.
  split; [reflexivity|]. split; [reflexivity|].
  refine (proj2 (getContainerTimestamps_first_failure Z 0%Z Mock.parse
                   Mock.badCreated [] 0 "yesterday"
                   (errorString ("parsing time " +:+ Quote "yesterday"))
                   eq_refl eq_refl _)).
  intros j s' Hj. lia.
Defined.

(** * Further properties of the code *)

(** ** Registry operations composed *)
Section Registry.

Context {W : Type} {platform : Platform W}.

Implicit Types (ds : dockerService) (containerID : string).
Implicit Types (info : option containerCleanupInfo).

(** X1: Clear undoes Set.  Set followed by Clear of the same identifier
    is Clear alone, and when the identifier was not registered it gives
    back the state before the Set.  A second Set overwrites the first,
    and a Set after a Clear is the Set alone. *)
Theorem set_clear_compose containerID info info' ds :
  clearContainerCleanupInfo containerID
    (setContainerCleanupInfo containerID info ds).2
  = clearContainerCleanupInfo containerID ds ∧
  (containerCleanupInfos ds !! containerID = None →
   (clearContainerCleanupInfo containerID
      (setContainerCleanupInfo containerID info ds).2).2 = ds) ∧
  setContainerCleanupInfo containerID info'
    (setContainerCleanupInfo containerID info ds).2
  = setContainerCleanupInfo containerID info' ds ∧
  setContainerCleanupInfo containerID info
    (clearContainerCleanupInfo containerID ds).2
  = setContainerCleanupInfo containerID info ds.
Proof.
  unfold clearContainerCleanupInfo, setContainerCleanupInfo, with_infos. cbn.
  split; [|split; [|split]].
  - by rewrite delete_insert_eq.
  - intros Hm. rewrite delete_insert_eq, delete_id by done.
    by destruct ds.
  - by rewrite insert_insert_eq.
  - by rewrite insert_delete_eq.
Qed.

(** X2: Get after Clear reports the identifier as absent, with nil
    metadata, whatever was registered.  In general the flag returned by
    Get is true exactly for the keys of the map, so an identifier
    registered with nil metadata (nil, true) is told apart from one that
    is not registered (nil, false). *)
Theorem get_reports_presence containerID ds :
  (getContainerCleanupInfo containerID
     (clearContainerCleanupInfo containerID ds).2).1 = (None, false) ∧
  ((getContainerCleanupInfo containerID ds).1.2 = true
     ↔ is_Some (containerCleanupInfos ds !! containerID)) ∧
  ((getContainerCleanupInfo containerID ds).1.2 = false
     → (getContainerCleanupInfo containerID ds).1.1 = None) ∧
  (getContainerCleanupInfo containerID
     (setContainerCleanupInfo containerID None ds).2).1 = (None, true).
Proof.
  unfold getContainerCleanupInfo, clearContainerCleanupInfo,
    setContainerCleanupInfo, with_infos. cbn.
  rewrite lookup_delete_eq, lookup_insert_eq.
  split; [done|]. split; [|split; [|done]].
  - destruct (containerCleanupInfos ds !! containerID) as [info|]; cbn.
    + split; [by eexists | done].
    + split; [done | by intros [? ?]].
  - by destruct (containerCleanupInfos ds !! containerID).
Qed.

(** X3: operations on two distinct identifiers commute: Set and Set, Set
    and Clear, Clear and Clear give the same registry in either order. *)
Theorem registry_commute (a b : string) info info' ds :
  a ≠ b →
  (setContainerCleanupInfo a info (setContainerCleanupInfo b info' ds).2).2
  = (setContainerCleanupInfo b info' (setContainerCleanupInfo a info ds).2).2 ∧
  (clearContainerCleanupInfo a (setContainerCleanupInfo b info' ds).2).2
  = (setContainerCleanupInfo b info' (clearContainerCleanupInfo a ds).2).2 ∧
  (clearContainerCleanupInfo a (clearContainerCleanupInfo b ds).2).2
  = (clearContainerCleanupInfo b (clearContainerCleanupInfo a ds).2).2.
Proof.
  intros Hne.
  unfold clearContainerCleanupInfo, setContainerCleanupInfo, with_infos. cbn.
  split; [|split].
  - by rewrite insert_insert_ne.
  - by rewrite delete_insert_ne.
  - by rewrite delete_delete.
Qed.

End Registry.

(** ** The platform step and the removal, further *)
Section Removal.

Context {W : Type} {client : Interface W} {platform : Platform W}.
Context {logs : LogSymlinks W} {strconv : Strconv}.

Implicit Types (ds : dockerService) (containerID : string).
Implicit Types (info : containerCleanupInfo) (errors : list (option error)).

Local Abbreviation symlinkRemoved containerID w ds :=
  (with_world w (with_call (CallRemoveContainerLogSymlink containerID) ds)).

(** The registry after the step is the one before, with or without the
    entry of the identifier. *)
Lemma forContainer_infos containerID ds :
  let run := performPlatformSpecificContainerForContainer containerID ds in
  (run.1 ≠ [] ∧ containerCleanupInfos run.2 = containerCleanupInfos ds) ∨
  (run.1 = [] ∧
   containerCleanupInfos run.2 = delete containerID (containerCleanupInfos ds)).
Proof.
  cbn zeta.
  destruct (containerCleanupInfos ds !! containerID) as [[info|]|] eqn:Hm.
  - destruct (performPlatformSpecificContainerCleanup info (world ds))
      as [errs w] eqn:Hhook.
    destruct errs as [|e errs].
    + rewrite (forContainer_clean _ _ _ _ Hm Hhook). by right.
    + rewrite (forContainer_failed _ _ _ _ _ Hm Hhook) by done. by left.
  - rewrite (forContainer_nil _ _ Hm). by right.
  - rewrite (forContainer_absent _ _ Hm). right. cbn.
    by rewrite delete_id.
Qed.

(** With metadata registered, the step calls the hook once, on that
    metadata. *)
Lemma forContainer_hook_once containerID info ds :
  containerCleanupInfos ds !! containerID = Some (Some info) →
  filter isPerformCleanup
    (calls (performPlatformSpecificContainerForContainer containerID ds).2)
  = filter isPerformCleanup (calls ds) ++ [CallPerformCleanup info].
Proof.
  intros Hm.
  destruct (performPlatformSpecificContainerCleanup info (world ds))
    as [errs w] eqn:Hhook.
  destruct errs as [|e errs].
  - rewrite (forContainer_clean _ _ _ _ Hm Hhook). cbn.
    rewrite filter_app, filter_cons_False by (cbn; tauto).
    by rewrite filter_cons_True by done.
  - rewrite (forContainer_failed _ _ _ _ _ Hm Hhook) by done. cbn.
    rewrite filter_app, filter_cons_False by (cbn; tauto).
    rewrite filter_cons_True by done.
    rewrite filter_cons_False by (cbn; tauto).
    by rewrite (filter_Infof isPerformCleanup (cleanupErrorLine containerID)).
Qed.

(** The removal when the symlink cannot be removed. *)
Lemma RemoveContainer_symlink_failed r ds err w :
  removeContainerLogSymlink (ContainerId r) (world ds) = (Some err, w) →
  RemoveContainer r ds
  = ((None, Some err),
     {| containerCleanupInfos := containerCleanupInfos ds;
        world := w;
        calls := calls ds ++ [CallRemoveContainerLogSymlink (ContainerId r)] |}).
Proof.
  intros Hsym.
  unfold RemoveContainer, bind, record, outside, ret.
  cbn [with_call world]. by rewrite Hsym.
Qed.

(** X4: an entry that holds a nil pointer is consumed silently.  The
    step returns no errors, deletes the entry, leaves the other entries
    and the outside world alone, and calls neither the hook nor the
    logger. *)
Theorem forContainer_nil_pointer containerID ds :
  containerCleanupInfos ds !! containerID = Some None →
  let run := performPlatformSpecificContainerForContainer containerID ds in
  run.1 = [] ∧
  containerCleanupInfos run.2 = delete containerID (containerCleanupInfos ds) ∧
  world run.2 = world ds ∧
  calls run.2 = calls ds ++ [CallPerformForContainer containerID].
Proof.
  intros Hm run. subst run. by rewrite (forContainer_nil _ _ Hm).
Qed.

(** X5: with non-nil metadata the cleanup-and-log helper calls the hook
    once, returns the hook's errors as they are and logs one line per
    error, in order; each line contains the container name and the text
    of its error.  The registry is not touched. *)
Theorem cleanupAndLogErrors_logs_each (containerNameOrID : string) info ds :
  let hook := performPlatformSpecificContainerCleanup info (world ds) in
  let run := performPlatformSpecificContainerCleanupAndLogErrors
               containerNameOrID (Some info) ds in
  run.1 = hook.1 ∧
  world run.2 = hook.2 ∧
  containerCleanupInfos run.2 = containerCleanupInfos ds ∧
  calls run.2
  = calls ds ++ CallPerformCleanup info
      :: (CallInfof ∘ cleanupErrorLine containerNameOrID <$> hook.1) ∧
  (∀ err, err ∈ hook.1 →
     Contains (cleanupErrorLine containerNameOrID err) containerNameOrID ∧
     Contains (cleanupErrorLine containerNameOrID err) (fmt.v_error err)).
Proof.
  intros hook run. subst hook run.
  destruct (performPlatformSpecificContainerCleanup info (world ds))
    as [errs w] eqn:Hhook.
  rewrite (cleanupAndLogErrors_Some _ _ _ _ _ Hhook). cbn.
  repeat split.
  - unfold cleanupErrorLine.
    apply Contains_app_l, Contains_app_r, Contains_refl.
  - unfold cleanupErrorLine.
    apply Contains_app_l, Contains_app_l, Contains_app_l, Contains_refl.
Qed.

(** X6: the platform step and RemoveContainer touch no registry entry but
    the one of their container: the lookup of every other identifier is
    the same before and after, on every path. *)
Theorem RemoveContainer_frame r (other : string) ds :
  other ≠ ContainerId r →
  containerCleanupInfos
    (performPlatformSpecificContainerForContainer (ContainerId r) ds).2 !! other
  = containerCleanupInfos ds !! other ∧
  containerCleanupInfos (RemoveContainer r ds).2 !! other
  = containerCleanupInfos ds !! other.
Proof.
  intros Hne.
  assert (∀ ds',
    containerCleanupInfos
      (performPlatformSpecificContainerForContainer (ContainerId r) ds').2
      !! other
    = containerCleanupInfos ds' !! other) as Hstep.
  { intros ds'.
    destruct (forContainer_infos (ContainerId r) ds') as [[_ ->]|[_ ->]];
      [done|]. by apply lookup_delete_ne. }
  split; [apply Hstep|].
  destruct (removeContainerLogSymlink (ContainerId r) (world ds))
    as [[err|] w] eqn:Hsym.
  - by rewrite (RemoveContainer_symlink_failed _ _ _ _ Hsym).
  - rewrite (RemoveContainer_symlink_ok _ _ _ Hsym). cbn zeta.
    destruct (negb _); cbn [snd containerCleanupInfos]; by rewrite Hstep.
Qed.

(** X7: RemoveContainer returns either a response or an error, never
    both and never neither. *)
Theorem RemoveContainer_response_xor_error r ds :
  is_Some (RemoveContainer r ds).1.1 ↔ (RemoveContainer r ds).1.2 = None.
Proof.
  destruct (removeContainerLogSymlink (ContainerId r) (world ds))
    as [[err|] w] eqn:Hsym.
  - rewrite (RemoveContainer_symlink_failed _ _ _ _ Hsym). cbn.
    split; [by intros [? ?] | done].
  - rewrite (RemoveContainer_symlink_ok _ _ _ Hsym). cbn zeta.
    destruct (negb _); cbn.
    + split; [by intros [? ?] | done].
    + destruct (client_RemoveContainer _ _ _).1; cbn.
      * split; [by intros [? ?] | done].
      * split; [done | by eexists].
Qed.

(** X8: a RemoveContainer that returns a nil error has removed the log
    symlink, has called the docker client exactly once, and leaves no
    registry entry for the container: no container is reported removed
    while its cleanup metadata is still registered. *)
Theorem RemoveContainer_success r ds :
  (RemoveContainer r ds).1.2 = None →
  (removeContainerLogSymlink (ContainerId r) (world ds)).1 = None ∧
  (RemoveContainer r ds).1.1 = Some Build_RemoveContainerResponse ∧
  containerCleanupInfos (RemoveContainer r ds).2 !! ContainerId r = None ∧
  filter isClientRemoveContainer (calls (RemoveContainer r ds).2)
  = filter isClientRemoveContainer (calls ds)
    ++ [CallClientRemoveContainer (ContainerId r) removeOptions].
Proof.
  destruct (removeContainerLogSymlink (ContainerId r) (world ds))
    as [[err|] w] eqn:Hsym.
  - by rewrite (RemoveContainer_symlink_failed _ _ _ _ Hsym).
  - rewrite (RemoveContainer_symlink_ok _ _ _ Hsym). cbn zeta.
    destruct (forContainer_calls (ContainerId r)
                (symlinkRemoved (ContainerId r) w ds)) as (new & Hcalls & Hnew).
    destruct (forContainer_infos (ContainerId r)
                (symlinkRemoved (ContainerId r) w ds)) as [[Herrs _]|[Herrs Hinfos]].
    + destruct (performPlatformSpecificContainerForContainer _ _).1; done.
    + rewrite Herrs. cbn [length Nat.eqb negb].
      destruct (client_RemoveContainer _ _ _).1;
        cbn [fst snd containerCleanupInfos calls]; [done|].
      intros _. split; [done|]. split; [done|]. split.
      * rewrite Hinfos. apply lookup_delete_eq.
      * rewrite Hcalls. cbn. rewrite !filter_app, Hnew.
        rewrite filter_cons_False by (cbn; tauto).
        rewrite filter_nil, !app_nil_r.
        by rewrite filter_cons_True by done.
Qed.

(** X9: the metadata is consumed before docker is asked.  When the
    symlink has been removed and the platform step returns no errors, the
    registry entry is gone after RemoveContainer even if the docker
    client then refuses the removal. *)
Theorem RemoveContainer_consumes_before_backend r ds w :
  removeContainerLogSymlink (ContainerId r) (world ds) = (None, w) →
  (performPlatformSpecificContainerForContainer (ContainerId r)
     (symlinkRemoved (ContainerId r) w ds)).1 = [] →
  containerCleanupInfos (RemoveContainer r ds).2 !! ContainerId r = None ∧
  (RemoveContainer r ds).1.2
  = (λ cause, fmt.Errorf (removeFailedMessage (ContainerId r) cause))
    <$> (client_RemoveContainer (ContainerId r) removeOptions
           (world (performPlatformSpecificContainerForContainer (ContainerId r)
                     (symlinkRemoved (ContainerId r) w ds)).2)).1.
Proof.
  intros Hsym Hclean.
  rewrite (RemoveContainer_symlink_ok _ _ _ Hsym). cbn zeta.
  destruct (forContainer_infos (ContainerId r)
              (symlinkRemoved (ContainerId r) w ds)) as [[Herrs _]|[_ Hinfos]];
    [done|].
  rewrite Hclean. cbn [length Nat.eqb negb fst snd containerCleanupInfos].
  split.
  - rewrite Hinfos. apply lookup_delete_eq.
  - by destruct (client_RemoveContainer _ _ _).1.
Qed.

(** X10: for a container without a registry entry RemoveContainer leaves
    the registry as it is and never calls the platform hook, whatever the
    symlink removal and the docker client answer. *)
Theorem RemoveContainer_unregistered r ds :
  containerCleanupInfos ds !! ContainerId r = None →
  containerCleanupInfos (RemoveContainer r ds).2 = containerCleanupInfos ds ∧
  filter isPerformCleanup (calls (RemoveContainer r ds).2)
  = filter isPerformCleanup (calls ds).
Proof.
  intros Hm.
  destruct (removeContainerLogSymlink (ContainerId r) (world ds))
    as [[err|] w] eqn:Hsym.
  - rewrite (RemoveContainer_symlink_failed _ _ _ _ Hsym). cbn.
    split; [done|].
    rewrite filter_app, filter_cons_False by (cbn; tauto).
    by rewrite filter_nil, app_nil_r.
  - rewrite (RemoveContainer_symlink_ok _ _ _ Hsym). cbn zeta.
    rewrite (forContainer_absent (ContainerId r)
               (symlinkRemoved (ContainerId r) w ds)) by done.
    cbn. split; [done|].
    rewrite <- !app_assoc. cbn.
    rewrite filter_app.
    rewrite !filter_cons_False by (cbn; tauto).
    by rewrite filter_nil, app_nil_r.
Qed.

(** Once the symlink is removed, the registry RemoveContainer leaves is
    the one the platform step leaves. *)
Lemma RemoveContainer_infos_of_step r ds w :
  removeContainerLogSymlink (ContainerId r) (world ds) = (None, w) →
  containerCleanupInfos (RemoveContainer r ds).2
  = containerCleanupInfos
      (performPlatformSpecificContainerForContainer (ContainerId r)
         (symlinkRemoved (ContainerId r) w ds)).2.
Proof.
  intros Hsym. rewrite (RemoveContainer_symlink_ok _ _ _ Hsym). cbn zeta.
  by destruct (negb _).
Qed.

(** Once the symlink is removed, a container registered with metadata has
    the hook called once, on that metadata. *)
Lemma RemoveContainer_hook_once r info ds w :
  containerCleanupInfos ds !! ContainerId r = Some (Some info) →
  removeContainerLogSymlink (ContainerId r) (world ds) = (None, w) →
  filter isPerformCleanup (calls (RemoveContainer r ds).2)
  = filter isPerformCleanup (calls ds) ++ [CallPerformCleanup info].
Proof.
  intros Hm Hsym.
  pose proof (forContainer_hook_once (ContainerId r) info
                (symlinkRemoved (ContainerId r) w ds) Hm) as Hhook.
  cbn [calls with_world with_call] in Hhook.
  rewrite filter_app, filter_cons_False, filter_nil, app_nil_r in Hhook
    by (cbn; tauto).
  rewrite (RemoveContainer_symlink_ok _ _ _ Hsym). cbn zeta.
  destruct (negb _); cbn [snd calls]; [done|].
  rewrite filter_app, Hhook, filter_cons_False by (cbn; tauto).
  by rewrite filter_nil, app_nil_r.
Qed.

(** X11: a removal that failed on cleanup can be retried.  When the hook
    returned errors, RemoveContainer fails and keeps the metadata; a
    second RemoveContainer for the same container calls the hook again on
    the same metadata, and if the hook then returns no errors the entry is
    gone afterwards. *)
Theorem RemoveContainer_retry r info ds w w' :
  containerCleanupInfos ds !! ContainerId r = Some (Some info) →
  removeContainerLogSymlink (ContainerId r) (world ds) = (None, w) →
  (performPlatformSpecificContainerCleanup info w).1 ≠ [] →
  removeContainerLogSymlink (ContainerId r) (world (RemoveContainer r ds).2)
    = (None, w') →
  is_Some (RemoveContainer r ds).1.2 ∧
  containerCleanupInfos (RemoveContainer r ds).2 !! ContainerId r
    = Some (Some info) ∧
  filter isPerformCleanup
    (calls (RemoveContainer r (RemoveContainer r ds).2).2)
  = filter isPerformCleanup (calls ds)
    ++ [CallPerformCleanup info; CallPerformCleanup info] ∧
  ((performPlatformSpecificContainerCleanup info w').1 = [] →
   containerCleanupInfos (RemoveContainer r (RemoveContainer r ds).2).2
     !! ContainerId r = None).
Proof.
  intros Hm Hsym Herrs Hsym'.
  destruct (performPlatformSpecificContainerCleanup info w)
    as [errs w2] eqn:Hhook.
  cbn [fst] in Herrs.
  pose proof (forContainer_failed (ContainerId r) info
                (symlinkRemoved (ContainerId r) w ds) errs w2 Hm Hhook Herrs)
    as Hstep.
  assert (containerCleanupInfos (RemoveContainer r ds).2 !! ContainerId r
          = Some (Some info)) as Hkept.
  { rewrite (RemoveContainer_infos_of_step _ _ _ Hsym), Hstep. exact Hm. }
  split; [|split; [exact Hkept|split]].
  - rewrite (RemoveContainer_symlink_ok _ _ _ Hsym). cbn zeta.
    rewrite Hstep. cbn [fst]. destruct errs; [done|]. by eexists.
  - rewrite (RemoveContainer_hook_once _ _ _ _ Hkept Hsym').
    rewrite (RemoveContainer_hook_once _ _ _ _ Hm Hsym).
    by rewrite <- app_assoc.
  - intros Hclean.
    destruct (performPlatformSpecificContainerCleanup info w')
      as [errs' w3] eqn:Hhook'.
    cbn [fst] in Hclean. subst errs'.
    rewrite (RemoveContainer_infos_of_step _ _ _ Hsym').
    rewrite (forContainer_clean (ContainerId r) info
               (symlinkRemoved (ContainerId r) w' (RemoveContainer r ds).2)
               w3 Hkept Hhook').
    apply lookup_delete_eq.
Qed.

(** X12: the order of the calls.  RemoveContainer only appends to the
    call log; the first call of every run is the removal of the log
    symlink; the docker client is called at most once, and when it is
    called it is the last call, for that container and with the remove
    options of the file. *)
Theorem RemoveContainer_call_order r ds :
  ∃ new,
    calls (RemoveContainer r ds).2
    = calls ds ++ CallRemoveContainerLogSymlink (ContainerId r) :: new ∧
    (filter isClientRemoveContainer new = [] ∨
     ∃ before,
       new = before
             ++ [CallClientRemoveContainer (ContainerId r) removeOptions] ∧
       filter isClientRemoveContainer before = []).
Proof.
  destruct (removeContainerLogSymlink (ContainerId r) (world ds))
    as [[err|] w] eqn:Hsym.
  - rewrite (RemoveContainer_symlink_failed _ _ _ _ Hsym).
    exists []. split; [done | by left].
  - rewrite (RemoveContainer_symlink_ok _ _ _ Hsym). cbn zeta.
    destruct (forContainer_calls (ContainerId r)
                (symlinkRemoved (ContainerId r) w ds)) as (new & Hcalls & Hnew).
    cbn [calls with_world with_call] in Hcalls.
    rewrite <- app_assoc in Hcalls. cbn [app] in Hcalls.
    destruct (negb _); cbn [snd calls].
    + exists new. split; [done | by left].
    + exists (new ++ [CallClientRemoveContainer (ContainerId r) removeOptions]).
      split.
      * rewrite Hcalls. by rewrite <- app_assoc.
      * right. by exists new.
Qed.

End Removal.

(** ** The variant of this file: empty metadata, a hook that does nothing *)
Section SourceVariant.

Context {W : Type} {client : Interface W}.
Context {logs : LogSymlinks W} {strconv : Strconv}.

Implicit Types (ds : @dockerService W (sourcePlatform W)).
Implicit Types (containerID : string).

Lemma sourcePlatform_step_run containerID ds :
  performPlatformSpecificContainerForContainer
    (platform := sourcePlatform W) containerID ds
  = ([], @Build_dockerService W (sourcePlatform W)
           (delete containerID (containerCleanupInfos ds))
           (world ds)
           (calls ds ++ CallPerformForContainer containerID
              :: match containerCleanupInfos ds !! containerID with
                 | Some (Some info) => [CallPerformCleanup info]
                 | _ => []
                 end)).
Proof.
  destruct (containerCleanupInfos ds !! containerID) as [[info|]|] eqn:Hm.
  - by rewrite (forContainer_clean (platform := sourcePlatform W)
                  containerID info ds (world ds) Hm eq_refl).
  - by rewrite (forContainer_nil (platform := sourcePlatform W)
                  containerID ds Hm).
  - rewrite (forContainer_absent (platform := sourcePlatform W)
               containerID ds Hm).
    unfold with_call. by rewrite delete_id.
Qed.

(** X13: with the hook of this file the platform step cannot fail.  For
    every service state and identifier it returns no errors, leaves the
    outside world as it is, logs nothing, and the entry of the identifier
    is absent afterwards while every other entry is kept. *)
Theorem sourcePlatform_step_never_fails containerID ds :
  let run := performPlatformSpecificContainerForContainer
               (platform := sourcePlatform W) containerID ds in
  run.1 = [] ∧
  world run.2 = world ds ∧
  containerCleanupInfos run.2 !! containerID = None ∧
  (∀ other, other ≠ containerID →
     containerCleanupInfos run.2 !! other = containerCleanupInfos ds !! other) ∧
  (∃ new, calls run.2 = calls ds ++ new ∧ ∀ line, CallInfof line ∉ new).
Proof.
  intros run. subst run. rewrite sourcePlatform_step_run. cbn.
  split; [done|]. split; [done|]. split; [apply lookup_delete_eq|].
  split; [intros other Hne; by apply lookup_delete_ne|].
  eexists. split; [done|].
  intros line [Heq|Hin]%elem_of_cons; [done|].
  repeat case_match;
    [by apply list_elem_of_singleton in Hin | by apply elem_of_nil in Hin..].
Qed.

(** X14: with the hook of this file RemoveContainer is the symlink
    removal followed by docker's removal.  Once the symlink is removed
    the docker client is always called, on the world the symlink removal
    left; the error returned is nil or the wrapped error of the client,
    never a cleanup failure, and no entry is left for the container. *)
Theorem sourcePlatform_RemoveContainer r ds w :
  removeContainerLogSymlink (ContainerId r) (world ds) = (None, w) →
  let run := RemoveContainer (platform := sourcePlatform W) r ds in
  let back := client_RemoveContainer (ContainerId r) removeOptions w in
  run.1.2
  = (λ cause, fmt.Errorf (removeFailedMessage (ContainerId r) cause))
    <$> back.1 ∧
  world run.2 = back.2 ∧
  containerCleanupInfos run.2 !! ContainerId r = None ∧
  filter isClientRemoveContainer (calls run.2)
  = filter isClientRemoveContainer (calls ds)
    ++ [CallClientRemoveContainer (ContainerId r) removeOptions].
Proof.
  intros Hsym run back. subst run back.
  rewrite (RemoveContainer_symlink_ok (platform := sourcePlatform W)
             _ _ _ Hsym). cbn zeta.
  rewrite sourcePlatform_step_run.
  cbn [fst snd length Nat.eqb negb world containerCleanupInfos calls
       with_world with_call].
  split; [by destruct (client_RemoveContainer _ _ _).1|].
  split; [done|]. split; [apply lookup_delete_eq|].
  rewrite <- !app_assoc. rewrite !filter_app.
  rewrite (filter_cons_False _ (CallRemoveContainerLogSymlink _))
    by (cbn; tauto).
  rewrite (filter_cons_False _ (CallPerformForContainer _)) by (cbn; tauto).
  destruct (containerCleanupInfos ds !! ContainerId r) as [[info|]|].
  - rewrite (filter_cons_False _ (CallPerformCleanup _)) by (cbn; tauto).
    by rewrite filter_nil.
  - by rewrite filter_nil.
  - by rewrite filter_nil.
Qed.

End SourceVariant.

(** ** Timestamp extraction, further *)
Section TimestampsFurther.

Variable Time : Type.
Variable zeroTime : Time.
Variable parse : string → Time * option error.

(** X15: extraction returns a nil error exactly when the parser accepts
    all three strings; it then returns the three parsed times, in the
    order Created, StartedAt, FinishedAt, after three parser calls in
    that order. *)
Theorem getContainerTimestamps_nil_error_iff r log :
  ((getContainerTimestamps Time zeroTime parse r log).1.2 = None
   ↔ ∀ s, s ∈ timestampFields r → (parse s).2 = None) ∧
  ((∀ s, s ∈ timestampFields r → (parse s).2 = None) →
   getContainerTimestamps Time zeroTime parse r log
   = (((parse (Created r)).1, (parse (StartedAt (State r))).1,
       (parse (FinishedAt (State r))).1, None),
      log ++ timestampFields r)).
Proof.
  split; [|apply getContainerTimestamps_ok].
  split.
  - unfold getContainerTimestamps, parseLogged, timestampFields.
    intros Hnil s Hs.
    destruct (parse (Created r)) as [t1 [e1|]] eqn:H1; [done|].
    destruct (parse (StartedAt (State r))) as [t2 [e2|]] eqn:H2; [done|].
    destruct (parse (FinishedAt (State r))) as [t3 [e3|]] eqn:H3; [done|].
    apply elem_of_cons in Hs as [->|Hs]; [by rewrite H1|].
    apply elem_of_cons in Hs as [->|Hs]; [by rewrite H2|].
    apply list_elem_of_singleton in Hs as ->. by rewrite H3.
  - intros Hok. by rewrite (getContainerTimestamps_ok _ _ _ _ _ Hok).
Qed.

(** X16: what comes back beside the error.  At the first string the
    parser rejects, the times of the fields up to and including that one
    are what the parser returned for them, and the times of the fields
    after it are the zero time. *)
Theorem getContainerTimestamps_times_on_failure r log i s e :
  timestampFields r !! i = Some s →
  (parse s).2 = Some e →
  (∀ j s', j < i → timestampFields r !! j = Some s' → (parse s').2 = None) →
  returnedTimes (getContainerTimestamps Time zeroTime parse r log).1
  = ((λ s', (parse s').1) <$> take (S i) (timestampFields r))
    ++ replicate (2 - i) zeroTime.
Proof.
  intros Hi He Hbefore.
  unfold getContainerTimestamps, parseLogged, timestampFields, returnedTimes
    in *.
  destruct i as [|[|[|i]]]; cbn in Hi; simplify_eq; cbn.
  - destruct (parse (Created r)) as [t1 e1]. cbn in *. by subst.
  - pose proof (Hbefore 0 _ ltac:(lia) eq_refl) as H1.
    destruct (parse (Created r)) as [t1 e1].
    destruct (parse (StartedAt (State r))) as [t2 e2].
    cbn in *. by subst.
  - pose proof (Hbefore 0 _ ltac:(lia) eq_refl) as H1.
    pose proof (Hbefore 1 _ ltac:(lia) eq_refl) as H2.
    destruct (parse (Created r)) as [t1 e1].
    destruct (parse (StartedAt (State r))) as [t2 e2].
    destruct (parse (FinishedAt (State r))) as [t3 e3].
    cbn in *. by subst.
Qed.

(** X17: the parser calls.  The result of an extraction does not depend
    on the calls made before it; the strings handed to the parser are an
    initial segment of Created, StartedAt, FinishedAt: at least one and
    at most three calls, in that order, none repeated. *)
Theorem getContainerTimestamps_parser_calls r log :
  let fresh := getContainerTimestamps Time zeroTime parse r [] in
  getContainerTimestamps Time zeroTime parse r log
  = (fresh.1, log ++ fresh.2) ∧
  fresh.2 `prefix_of` timestampFields r ∧
  1 ≤ length fresh.2 ≤ 3.
Proof.
  unfold getContainerTimestamps, parseLogged, timestampFields. cbn zeta.
  destruct (parse (Created r)) as [t1 [e1|]]; cbn.
  { split; [done|]. split; [by eexists | lia]. }
  destruct (parse (StartedAt (State r))) as [t2 [e2|]]; cbn.
  { rewrite <- app_assoc. split; [done|]. split; [by eexists | lia]. }
  destruct (parse (FinishedAt (State r))) as [t3 [e3|]]; cbn.
  { rewrite <- !app_assoc. split; [done|]. split; [by eexists [] | lia]. }
  rewrite <- !app_assoc. split; [done|]. split; [by eexists [] | lia].
Qed.

End TimestampsFurther.

(** ** The further properties at the test data *)

Lemma set_clear_compose_witness :
  containerCleanupInfos Mock.abc !! "ghi" = None ∧
  (clearContainerCleanupInfo "ghi"
     (setContainerCleanupInfo "ghi" (Some ["v2"]) Mock.abc).2).2 = Mock.abc.
Proof.
  split; [reflexivity|].
  apply (proj1 (proj2 (set_clear_compose (platform := Mock.platform)
                         "ghi" (Some ["v2"]) None Mock.abc))).
  reflexivity.
Defined.

Lemma get_reports_presence_witness :
  (getContainerCleanupInfo "ghi" Mock.abc).1.2 = false ∧
  (getContainerCleanupInfo "ghi" Mock.abc).1.1 = None.
Proof.
  split; [reflexivity|].
  apply (proj1 (proj2 (proj2 (get_reports_presence (platform := Mock.platform)
                                "ghi" Mock.abc)))).
  reflexivity.
Defined.

Lemma registry_commute_witness :
  "abc" ≠ "def" ∧
  (clearContainerCleanupInfo "abc"
     (setContainerCleanupInfo "def" None Mock.abc).2).2
  = (setContainerCleanupInfo "def" None
       (clearContainerCleanupInfo "abc" Mock.abc).2).2.
Proof.
  assert ("abc" ≠ "def") as Hne by discriminate.
  split; [exact Hne|].
  exact (proj1 (proj2 (registry_commute (platform := Mock.platform)
                         "abc" "def" None None Mock.abc Hne))).
Defined.

Lemma forContainer_nil_pointer_witness :
  containerCleanupInfos Fixture.nilEntry !! "abc" = Some None ∧
  (performPlatformSpecificContainerForContainer "abc" Fixture.nilEntry).1 = [] ∧
  calls (performPlatformSpecificContainerForContainer "abc" Fixture.nilEntry).2
  = [CallPerformForContainer "abc"].
Proof.
  split; [reflexivity|].
  destruct (forContainer_nil_pointer (platform := Mock.platform)
              "abc" Fixture.nilEntry eq_refl) as (Herrors & _ & _ & Hcalls).
  split; [exact Herrors | exact Hcalls].
Defined.

Lemma cleanupAndLogErrors_logs_each_witness :
  Some Mock.errA ∈ [Some Mock.errA; Some Mock.errB] ∧
  Contains (cleanupErrorLine "def" (Some Mock.errA)) "errA".
Proof.
  assert (Some Mock.errA ∈ [Some Mock.errA; Some Mock.errB]) as Hin
    by (apply elem_of_cons; left; reflexivity).
  split; [exact Hin|].
  destruct (cleanupAndLogErrors_logs_each (platform := Mock.platform)
              "def" ["v1"] Mock.def) as (_ & _ & _ & _ & Hlines).
  exact (proj2 (Hlines (Some Mock.errA) Hin)).
Defined.

Lemma RemoveContainer_frame_witness :
  "def" ≠ ContainerId (Mock.request "abc") ∧
  containerCleanupInfos
    (RemoveContainer (Mock.request "abc") Fixture.nilEntry).2 !! "def"
  = containerCleanupInfos Fixture.nilEntry !! "def".
Proof.
  assert ("def" ≠ ContainerId (Mock.request "abc")) as Hne by discriminate.
  split; [exact Hne|].
  exact (proj2 (RemoveContainer_frame (client := Mock.client)
                  (platform := Mock.platform) (logs := Mock.logs)
                  (strconv := Mock.strconv)
                  (Mock.request "abc") "def" Fixture.nilEntry Hne)).
Defined.

Lemma RemoveContainer_response_xor_error_witness :
  is_Some (RemoveContainer (Mock.request "abc") Mock.abc).1.1 ∧
  (RemoveContainer (Mock.request "abc") Mock.abc).1.2 = None.
Proof.
  assert (is_Some (RemoveContainer (Mock.request "abc") Mock.abc).1.1) as Hresp
    by (eexists; reflexivity).
  split; [exact Hresp|].
  exact (proj1 (RemoveContainer_response_xor_error (client := Mock.client)
                  (platform := Mock.platform) (logs := Mock.logs)
                  (strconv := Mock.strconv)
                  (Mock.request "abc") Mock.abc) Hresp).
Defined.

Lemma RemoveContainer_success_witness :
  (RemoveContainer (Mock.request "abc") Mock.abc).1.2 = None ∧
  containerCleanupInfos (RemoveContainer (Mock.request "abc") Mock.abc).2
    !! "abc" = None.
Proof.
  split; [reflexivity|].
  destruct (RemoveContainer_success (client := Mock.client)
              (platform := Mock.platform) (logs := Mock.logs)
              (strconv := Mock.strconv)
              (Mock.request "abc") Mock.abc eq_refl) as (_ & _ & Hgone & _).
  exact Hgone.
Defined.

Lemma RemoveContainer_consumes_before_backend_witness :
  removeContainerLogSymlink "abc" (world Mock.refused)
    = (None, Mock.removeFails) ∧
  is_Some (RemoveContainer (Mock.request "abc") Mock.refused).1.2 ∧
  containerCleanupInfos (RemoveContainer (Mock.request "abc") Mock.refused).2
    !! "abc" = None.
Proof.
  split; [reflexivity|].
  split; [eexists; reflexivity|].
  exact (proj1 (RemoveContainer_consumes_before_backend (client := Mock.client)
                  (platform := Mock.platform) (logs := Mock.logs)
                  (strconv := Mock.strconv)
                  (Mock.request "abc") Mock.refused Mock.removeFails
                  eq_refl eq_refl)).
Defined.

Lemma RemoveContainer_unregistered_witness :
  containerCleanupInfos Mock.ghi !! ContainerId (Mock.request "ghi") = None ∧
  containerCleanupInfos (RemoveContainer (Mock.request "ghi") Mock.ghi).2
  = containerCleanupInfos Mock.ghi.
Proof.
  split; [reflexivity|].
  exact (proj1 (RemoveContainer_unregistered (client := Mock.client)
                  (platform := Mock.platform) (logs := Mock.logs)
                  (strconv := Mock.strconv)
                  (Mock.request "ghi") Mock.ghi eq_refl)).
Defined.

Lemma RemoveContainer_retry_witness :
  containerCleanupInfos Mock.def !! "def" = Some (Some ["v1"]) ∧
  (performPlatformSpecificContainerCleanup ["v1"] Mock.cleanupFails).1 ≠ [] ∧
  filter isPerformCleanup
    (calls (RemoveContainer (Mock.request "def")
              (RemoveContainer (Mock.request "def") Mock.def).2).2)
  = [CallPerformCleanup ["v1"]; CallPerformCleanup ["v1"]].
Proof.
  split; [reflexivity|].
  assert ((performPlatformSpecificContainerCleanup (Platform := Mock.platform)
             ["v1"] Mock.cleanupFails).1 ≠ []) as Hne by discriminate.
  split; [exact Hne|].
  destruct (RemoveContainer_retry (client := Mock.client)
              (platform := Mock.platform) (logs := Mock.logs)
              (strconv := Mock.strconv)
              (Mock.request "def") ["v1"] Mock.def
              Mock.cleanupFails Mock.cleanupFails
              eq_refl eq_refl Hne eq_refl) as (_ & _ & Hcalls & _).
  exact Hcalls.
Defined.

Lemma sourcePlatform_step_never_fails_witness :
  "def" ≠ "abc" ∧
  containerCleanupInfos
    (performPlatformSpecificContainerForContainer
       (platform := sourcePlatform Mock.script) "abc" Fixture.registered).2
    !! "def"
  = containerCleanupInfos Fixture.registered !! "def".
Proof.
  assert ("def" ≠ "abc") as Hne by discriminate.
  split; [exact Hne|].
  destruct (sourcePlatform_step_never_fails (W := Mock.script)
              "abc" Fixture.registered) as (_ & _ & _ & Hothers & _).
  exact (Hothers "def" Hne).
Defined.

Lemma sourcePlatform_RemoveContainer_witness :
  removeContainerLogSymlink "abc" (world Fixture.registered)
    = (None, Mock.healthy) ∧
  (RemoveContainer (platform := sourcePlatform Mock.script)
     (Mock.request "abc") Fixture.registered).1.2 = None ∧
  containerCleanupInfos
    (RemoveContainer (platform := sourcePlatform Mock.script)
       (Mock.request "abc") Fixture.registered).2 !! "abc" = None.
Proof.
  split; [reflexivity|].
  destruct (sourcePlatform_RemoveContainer (client := Mock.client)
              (logs := Mock.logs) (strconv := Mock.strconv)
              (Mock.request "abc") Fixture.registered Mock.healthy eq_refl)
    as (Herr & _ & Hgone & _).
  split; [exact Herr | exact Hgone].
Defined.

Lemma getContainerTimestamps_nil_error_iff_witness :
  (∀ s, s ∈ timestampFields Fixture.wellFormed → (Mock.parse s).2 = None) ∧
  (getContainerTimestamps Z 0%Z Mock.parse Fixture.wellFormed []).1.2 = None.
Proof.
  assert (∀ s, s ∈ timestampFields Fixture.wellFormed →
               (Mock.parse s).2 = None) as Hok.
  { intros s Hs. unfold timestampFields in Hs. cbn in Hs.
    apply elem_of_cons in Hs as [->|Hs]; [reflexivity|].
    apply elem_of_cons in Hs as [->|Hs]; [reflexivity|].
    apply list_elem_of_singleton in Hs as ->. reflexivity. }
  split; [exact Hok|].
  exact (proj2 (proj1 (getContainerTimestamps_nil_error_iff Z 0%Z Mock.parse
                         Fixture.wellFormed [])) Hok).
Defined.

Lemma getContainerTimestamps_times_on_failure_witness :
  timestampFields Mock.badStartedAt !! 1 = Some "yesterday" ∧
  returnedTimes (getContainerTimestamps Z 0%Z Mock.parse Mock.badStartedAt []).1
  = [1622541600%Z; 0%Z; 0%Z].
Proof.
  split; [reflexivity|].
  refine (getContainerTimestamps_times_on_failure Z 0%Z Mock.parse
            Mock.badStartedAt [] 1 "yesterday"
            (errorString ("parsing time " +:+ Quote "yesterday"))
            eq_refl eq_refl _).
  intros j s' Hj Hs'.
  destruct j as [|j]; [|lia].
  cbn in Hs'. injection Hs' as <-. reflexivity.
Defined.
